(** * The CircleCI build-matrix generator [.circleci/regenerate.py]

    A shallow embedding of the matrix expander ([build_workflows],
    [workflow_pair], [generate_base_workflow], [generate_upload_workflow]
    and the two image look-ups) and of the smoke-test builder
    ([generate_smoketest_workflow], [gen_filter_branch_tree]), together with
    the properties that the design document states about the generated job
    list and further properties read off the code.

    Python values are embedded as follows.
    - [str] is [string]; an f-string is a chain of [+:+]; [s.startswith(p)]
      is [startswith p s]; the slice [s[n:]] is [str_drop n s]; [p in s] on
      strings is [str_contains p s].
    - a [dict] with string keys is a [gmap string pyval]; [d[k] = v] is
      [<[k := v]> d] and a missing key is a lookup returning [None].
    - an argument that is either [None] or a [str] (the branch filter) is an
      [option string]; truthiness of such a value is [py_truthy].
    - [w += ...] over nested [for] loops is the list monad ([x ← l; ...]),
      which concatenates the contributions in iteration order. *)

From stdpp Require Import gmap strings list fin_maps.

#[local] Open Scope string_scope.
#[local] Set Warnings "-register-all".

(** ** Python values *)

Inductive pyval : Type :=
  | PNone
  | PStr (s : string)
  | PList (l : list pyval)
  | PDict (m : gmap string pyval).

(** One element of the generated list is a one-entry mapping [{w: d}]: the
    CircleCI job type [w] and the job's parameters [d]. *)
Record Job : Type := MkJob {
  job_key : string;
  job_fields : gmap string pyval
}.

(** The mapping [{w: d}] as a Python value, the form handed to the YAML
    writer. *)
Definition job_to_pyval (j : Job) : pyval :=
  PDict {[ job_key j := PDict (job_fields j) ]}.

Module Py.

(** [s.startswith(p)] *)
Definition startswith (p s : string) : bool := String.prefix p s.

(** [s[n:]] for [0 <= n] *)
Fixpoint str_drop (n : nat) (s : string) : string :=
  match n, s with
  | O, _ => s
  | S _, EmptyString => EmptyString
  | S n', String _ s' => str_drop n' s'
  end.

(** [p in s] for two strings: [p] occurs as a substring of [s]. *)
Fixpoint str_contains (p s : string) : bool :=
  startswith p s ||
  match s with
  | EmptyString => false
  | String _ s' => str_contains p s'
  end.

(** Truthiness of a value that is [None] or a [str]: [None] and the empty
    string are false. *)
Definition py_truthy (o : option string) : bool :=
  match o with
  | None => false
  | Some s => negb (s =? "")
  end.

(** [l[-1]] and [l[0]]; Python raises [IndexError] on an empty list, which
    is [None] here. *)
Definition last_item (l : list string) : option string := last l.
Definition first_item (l : list string) : option string := head l.

End Py.
Import Py.

(** ** Module-level data *)

Definition PYTHON_VERSIONS : list string := ["3.8"; "3.9"; "3.10"; "3.11"].

Definition RC_PATTERN : string := "/v[0-9]+(\.[0-9]+)*-rc[0-9]+/".

(** The dictionary built at the top of the [os_type] loop body. *)
Definition cu_versions_dict : gmap string (list string) :=
  {[ "linux" := ["cpu"; "cu117"; "cu118"; "cu121"; "rocm5.2"; "rocm5.3"];
     "win" := ["cpu"; "cu117"; "cu118"; "cu121"];
     "macos" := ["cpu"] ]}.

(** ** Image look-ups

    Both functions fall off their last [elif] for an unrecognised variant,
    so Python returns [None]. *)

Definition get_manylinux_image (cu_version : string) : pyval :=
  if cu_version =? "cpu" then PStr "pytorch/manylinux-cpu"
  else if startswith "cu" cu_version then
    let cu_suffix := str_drop (String.length "cu") cu_version in
    PStr ("pytorch/manylinux-cuda" +:+ cu_suffix)
  else if startswith "rocm" cu_version then
    let rocm_suffix := str_drop (String.length "rocm") cu_version in
    PStr ("pytorch/manylinux-rocm:" +:+ rocm_suffix)
  else PNone.

Definition get_conda_image (cu_version : string) : pyval :=
  if cu_version =? "cpu" then PStr "pytorch/conda-builder:cpu"
  else if startswith "cu" cu_version then
    let cu_suffix := str_drop (String.length "cu") cu_version in
    PStr ("pytorch/conda-builder:cuda" +:+ cu_suffix)
  else PNone.

(** ** Job descriptors *)

(** The [filters] literal that [generate_base_workflow] and
    [generate_upload_workflow] both spell out. *)
Definition filters_literal (filter_branch : string) : pyval :=
  PDict {[ "branches" := PDict {[ "only" := PStr filter_branch ]};
           "tags" := PDict {[ "only" := PStr "/v[0-9]+(\.[0-9]+)*-rc[0-9]+/" ]} ]}.

Definition generate_base_workflow
    (base_workflow_name python_version cu_version : string) (unicode : bool)
    (os_type btype : string) (filter_branch : option string) : Job :=
  let d : gmap string pyval :=
    {[ "name" := PStr base_workflow_name;
       "python_version" := PStr python_version;
       "cu_version" := PStr cu_version ]} in
  let d :=
    if negb (os_type =? "win") && unicode
    then <["unicode_abi" := PStr "1"]> d else d in
  let d :=
    if negb (os_type =? "win") then
      let d := <["wheel_docker_image" := get_manylinux_image cu_version]> d in
      if negb (str_contains "rocm" cu_version)
      then <["conda_docker_image" := get_conda_image cu_version]> d else d
    else d in
  let d :=
    match filter_branch with
    | Some fb => <["filters" := filters_literal fb]> d
    | None => d
    end in
  let w := "binary_" +:+ os_type +:+ "_" +:+ btype in
  MkJob w d.

Definition generate_upload_workflow
    (base_workflow_name os_type btype cu_version : string)
    (filter_branch : option string) : Job :=
  let d : gmap string pyval :=
    {[ "name" := PStr (base_workflow_name +:+ "_upload");
       "context" := PStr "org-member";
       "requires" := PList [PStr base_workflow_name] ]} in
  let d :=
    if btype =? "wheel"
    then <["subfolder" := PStr (if os_type =? "macos" then "" else cu_version +:+ "/")]> d
    else d in
  let d :=
    match filter_branch with
    | Some fb => <["filters" := filters_literal fb]> d
    | None => d
    end in
  MkJob ("binary_" +:+ btype +:+ "_upload") d.

Definition workflow_pair
    (btype os_type python_version cu_version : string) (unicode : bool)
    (prefix : string) (upload : bool) (filter_branch : option string) : list Job :=
  let unicode_suffix := if unicode then "u" else "" in
  let base_workflow_name :=
    prefix +:+ "binary_" +:+ os_type +:+ "_" +:+ btype +:+ "_py" +:+ python_version
           +:+ unicode_suffix +:+ "_" +:+ cu_version in
  let w :=
    [generate_base_workflow base_workflow_name python_version cu_version unicode
                            os_type btype filter_branch] in
  let upload := if (os_type =? "linux") && (btype =? "wheel") then false else upload in
  if upload
  then w ++ [generate_upload_workflow base_workflow_name os_type btype cu_version filter_branch]
  else w.

(** ** The matrix expander *)

(** Lines 46-61: the branch filter [fb] that the loop body computes from the
    [filter_branch] option before it decides whether to skip. *)
Definition effective_filter_branch
    (filter_branch : option string) (windows_latest_only : bool)
    (python_versions cu_versions : list string)
    (btype os_type python_version cu_version : string) : option string :=
  let fb := filter_branch in
  let fb :=
    if windows_latest_only
       && (os_type =? "win")
       && bool_decide (filter_branch = None)
       && (negb (bool_decide (Some python_version = last_item python_versions))
           || negb (bool_decide (Some cu_version = first_item cu_versions)
                    || bool_decide (Some cu_version = last_item cu_versions)))
    then Some "main" else fb in
  if negb (py_truthy fb)
     && ((os_type =? "linux") && (cu_version =? "cpu") && (btype =? "wheel")
         && (python_version =? "3.8"))
  then Some "/.*/" else fb.

(** Lines 46-77: the body of the innermost loop, for one value of every
    axis. *)
Definition build_workflows_body
    (prefix : string) (filter_branch : option string) (upload windows_latest_only : bool)
    (python_versions cu_versions : list string)
    (btype os_type python_version cu_version : string) (unicode : bool) : list Job :=
  let fb := effective_filter_branch filter_branch windows_latest_only
              python_versions cu_versions btype os_type python_version cu_version in
  if (os_type =? "linux") && (btype =? "wheel") then []
  else if (os_type =? "macos") && (btype =? "wheel") then []
  else if negb (os_type =? "win") && (btype =? "conda") then []
  else workflow_pair btype os_type python_version cu_version unicode prefix upload fb.

(** Lines 42-77: what one (package type, OS, Python version, compute variant)
    combination adds to [w]. *)
Definition build_workflows_combo
    (prefix : string) (filter_branch : option string) (upload windows_latest_only : bool)
    (python_versions cu_versions : list string)
    (btype os_type python_version cu_version : string) : list Job :=
  if startswith "rocm" cu_version && (btype =? "conda") then []
  else
    unicode ← [false];
    build_workflows_body prefix filter_branch upload windows_latest_only
      python_versions cu_versions btype os_type python_version cu_version unicode.

(** The list [w] that [build_workflows] has accumulated when its loops end.
    The source returns [indent(indentation, w)], the YAML text of this list
    produced by the external writer; [indentation] only feeds that call. The
    look-up [cu_versions_dict[os_type]] is only made at the three keys of the
    dictionary. *)
Definition build_workflows
    (prefix : string) (filter_branch : option string)
    (upload windows_latest_only : bool) : list Job :=
  btype ← ["wheel"; "conda"];
  os_type ← ["linux"; "macos"; "win"];
  let python_versions := PYTHON_VERSIONS in
  let cu_versions := default [] (cu_versions_dict !! os_type) in
  python_version ← python_versions;
  cu_version ← cu_versions;
  build_workflows_combo prefix filter_branch upload windows_latest_only
    python_versions cu_versions btype os_type python_version cu_version.

(** ** Observations on a descriptor *)

Definition job_name (j : Job) : option pyval := job_fields j !! "name".

(** An upload descriptor is one that [requires] another job. *)
Definition is_upload (j : Job) : bool :=
  bool_decide (is_Some (job_fields j !! "requires")).

Definition is_base (j : Job) : bool := negb (is_upload j).

(** The part of a base job's name after the prefix, for [unicode = False]. *)
Definition job_suffix (os_type btype python_version cu_version : string) : string :=
  "binary_" +:+ os_type +:+ "_" +:+ btype +:+ "_py" +:+ python_version
            +:+ "_" +:+ cu_version.

(** The combinations that survive the skip rules, in iteration order: both
    package types on Windows, every Python version, every Windows compute
    variant. *)
Definition emitted_combos : list (string * string * string) :=
  btype ← ["wheel"; "conda"];
  python_version ← PYTHON_VERSIONS;
  cu_version ← ["cpu"; "cu117"; "cu118"; "cu121"];
  [(btype, python_version, cu_version)].

(** Their names without the prefix: each base job, followed by its upload
    job when uploads are generated. *)
Definition emitted_suffixes (upload : bool) : list string :=
  emitted_combos ≫= λ '(btype, python_version, cu_version),
    let s := job_suffix "win" btype python_version cu_version in
    s :: (if upload then [s +:+ "_upload"] else []).

(** The skip rules of the design document. *)
Definition skip_rule (btype os_type cu_version : string) : Prop :=
  (btype = "wheel" ∧ os_type = "linux") ∨
  (btype = "wheel" ∧ os_type = "macos") ∨
  (btype = "conda" ∧ os_type ≠ "win") ∨
  (btype = "conda" ∧ startswith "rocm" cu_version = true).

(** ** The remaining module-level functions *)

(** The module's table of manylinux images. *)
Definition manylinux_images : gmap string string :=
  {[ "cu117" := "pytorch/manylinux-cuda117";
     "cu118" := "pytorch/manylinux-cuda118";
     "cu121" := "pytorch/manylinux-cuda121" ]}.

(** [gen_filter_branch_tree]: its variadic positional arguments arrive as
    the list [branches]; [tags_list] defaults to [None]. *)
Definition gen_filter_branch_tree
    (branches : list pyval) (tags_list : option pyval) : gmap string pyval :=
  let filter_dict : gmap string pyval :=
    {[ "branches" := PDict {[ "only" := PList branches ]} ]} in
  match tags_list with
  | Some t => <["tags" := PDict {[ "only" := t ]}]> filter_dict
  | None => filter_dict
  end.

Definition generate_smoketest_workflow
    (pydistro base_workflow_name : string) (filter_branch : option string)
    (python_version os_type : string) : Job :=
  let required_build_suffix := "_upload" in
  let required_build_name := base_workflow_name +:+ required_build_suffix in
  let smoke_suffix := "smoke_test_" +:+ pydistro in
  let d : gmap string pyval :=
    {[ "name" := PStr (base_workflow_name +:+ "_" +:+ smoke_suffix);
       "requires" := PList [PStr required_build_name];
       "python_version" := PStr python_version ]} in
  let d :=
    match filter_branch with
    | Some fb =>
        if py_truthy filter_branch
        then <["filters" := PDict (gen_filter_branch_tree [PStr fb] None)]> d
        else d
    | None => d
    end in
  MkJob ("smoke_test_" +:+ os_type +:+ "_" +:+ pydistro) d.

(** * Image look-up *)

(** C6: [get_manylinux_image "cu121"], [get_manylinux_image "cpu"] and
    [get_conda_image "cu117"] are the three stated images; every variant
    ["cu" ++ s] maps to the CUDA image named after [s] in both look-ups, and
    every variant ["rocm" ++ s] maps to the ROCm image named after [s] in
    [get_manylinux_image] only ([get_conda_image] has no image for it). *)
Theorem image_lookup :
  get_manylinux_image "cu121" = PStr "pytorch/manylinux-cuda121" ∧
  get_manylinux_image "cpu" = PStr "pytorch/manylinux-cpu" ∧
  get_conda_image "cu117" = PStr "pytorch/conda-builder:cuda117" ∧
  (∀ s, get_manylinux_image ("cu" +:+ s) = PStr ("pytorch/manylinux-cuda" +:+ s)) ∧
  (∀ s, get_conda_image ("cu" +:+ s) = PStr ("pytorch/conda-builder:cuda" +:+ s)) ∧
  (∀ s, get_manylinux_image ("rocm" +:+ s) = PStr ("pytorch/manylinux-rocm:" +:+ s)) ∧
  (∀ s, get_conda_image ("rocm" +:+ s) = PNone).
Proof.
  repeat split; try reflexivity; intros s; destruct s; reflexivity.
Qed.

(** * Fields of a descriptor *)

Lemma str_app_assoc (a b c : string) : (a +:+ b) +:+ c = a +:+ (b +:+ c).
Proof.
  induction a as [|x a IH]; [reflexivity|].
  change (String x ((a +:+ b) +:+ c) = String x (a +:+ (b +:+ c))).
  by rewrite IH.
Qed.

Ltac base_cases os_type unicode cu_version filter_branch :=
  unfold generate_base_workflow, job_name, is_upload; simpl job_fields;
  destruct (os_type =? "win"), unicode, (str_contains "rocm" cu_version),
    filter_branch; reflexivity.

Ltac upload_cases btype filter_branch :=
  unfold generate_upload_workflow, job_name, is_upload; simpl job_fields;
  destruct (btype =? "wheel"), filter_branch; reflexivity.

Section base_fields.
Context (n python_version cu_version os_type btype : string).
Context (unicode : bool) (filter_branch : option string).

Let base :=
  generate_base_workflow n python_version cu_version unicode os_type btype
    filter_branch.

Lemma base_name : job_name base = Some (PStr n).
Proof. subst base. base_cases os_type unicode cu_version filter_branch. Qed.

Lemma base_python_version :
  job_fields base !! "python_version" = Some (PStr python_version).
Proof. subst base. base_cases os_type unicode cu_version filter_branch. Qed.

Lemma base_cu_version : job_fields base !! "cu_version" = Some (PStr cu_version).
Proof. subst base. base_cases os_type unicode cu_version filter_branch. Qed.

Lemma base_filters : job_fields base !! "filters" = filters_literal <$> filter_branch.
Proof. subst base. base_cases os_type unicode cu_version filter_branch. Qed.

Lemma base_not_upload : is_upload base = false.
Proof. subst base. base_cases os_type unicode cu_version filter_branch. Qed.
End base_fields.

Section upload_fields.
Context (n os_type btype cu_version : string) (filter_branch : option string).

Let upl := generate_upload_workflow n os_type btype cu_version filter_branch.

Lemma upload_name : job_name upl = Some (PStr (n +:+ "_upload")).
Proof. subst upl. upload_cases btype filter_branch. Qed.

Lemma upload_requires : job_fields upl !! "requires" = Some (PList [PStr n]).
Proof. subst upl. upload_cases btype filter_branch. Qed.

Lemma upload_filters : job_fields upl !! "filters" = filters_literal <$> filter_branch.
Proof. subst upl. upload_cases btype filter_branch. Qed.

Lemma upload_is_upload : is_upload upl = true.
Proof. subst upl. upload_cases btype filter_branch. Qed.

Lemma upload_no_image k :
  k ∈ ["wheel_docker_image"; "conda_docker_image"; "unicode_abi"] →
  job_fields upl !! k = None.
Proof.
  intros Hk. subst upl. unfold generate_upload_workflow. simpl job_fields.
  repeat (apply elem_of_cons in Hk as [->|Hk]);
    [ destruct (btype =? "wheel"), filter_branch; reflexivity .. | ].
  by apply elem_of_nil in Hk.
Qed.
End upload_fields.

(** On Windows the base descriptor gets neither image nor the unicode flag. *)
Lemma base_win_no_image n python_version cu_version unicode btype filter_branch k :
  k ∈ ["wheel_docker_image"; "conda_docker_image"; "unicode_abi"] →
  job_fields (generate_base_workflow n python_version cu_version unicode "win"
                btype filter_branch) !! k = None.
Proof.
  intros Hk. unfold generate_base_workflow. simpl job_fields.
  repeat (apply elem_of_cons in Hk as [->|Hk]);
    [ destruct filter_branch; reflexivity .. | ].
  by apply elem_of_nil in Hk.
Qed.

(** What [workflow_pair] returns, for [unicode = False]. *)
Lemma workflow_pair_eq btype os_type python_version cu_version prefix upload fb :
  let n := prefix +:+ job_suffix os_type btype python_version cu_version in
  workflow_pair btype os_type python_version cu_version false prefix upload fb =
  generate_base_workflow n python_version cu_version false os_type btype fb ::
  (if (if (os_type =? "linux") && (btype =? "wheel") then false else upload)
   then [generate_upload_workflow n os_type btype cu_version fb] else []).
Proof.
  unfold workflow_pair, job_suffix.
  by destruct ((os_type =? "linux") && (btype =? "wheel")), upload.
Qed.

(** * The shape of the generated list *)

Lemma cu_versions_win :
  cu_versions_dict !! "win" = Some ["cpu"; "cu117"; "cu118"; "cu121"].
Proof. reflexivity. Qed.

(** Only the Windows combinations contribute, each through [workflow_pair]. *)
Lemma build_workflows_unfold prefix filter_branch upload windows_latest_only :
  build_workflows prefix filter_branch upload windows_latest_only =
  emitted_combos ≫= λ '(btype, python_version, cu_version),
    workflow_pair btype "win" python_version cu_version false prefix upload
      (effective_filter_branch filter_branch windows_latest_only PYTHON_VERSIONS
         ["cpu"; "cu117"; "cu118"; "cu121"] btype "win" python_version cu_version).
Proof.
  destruct upload; reflexivity.
Qed.

Lemma elem_of_emitted_combos btype python_version cu_version :
  (btype, python_version, cu_version) ∈ emitted_combos ↔
  btype ∈ ["wheel"; "conda"] ∧ python_version ∈ PYTHON_VERSIONS ∧
  cu_version ∈ ["cpu"; "cu117"; "cu118"; "cu121"].
Proof.
  unfold emitted_combos. rewrite list_elem_of_bind. split.
  - intros (bt & Hin & Hbt). apply list_elem_of_bind in Hin as (pv & Hin & Hpv).
    apply list_elem_of_bind in Hin as (cu & Hin & Hcu).
    apply list_elem_of_singleton in Hin. by simplify_eq.
  - intros (Hbt & Hpv & Hcu). exists btype. split; [|done].
    apply list_elem_of_bind. exists python_version. split; [|done].
    apply list_elem_of_bind. exists cu_version. split; [|done].
    by apply list_elem_of_singleton.
Qed.

Lemma elem_of_build_workflows prefix filter_branch upload windows_latest_only j :
  j ∈ build_workflows prefix filter_branch upload windows_latest_only ↔
  ∃ btype python_version cu_version,
    (btype, python_version, cu_version) ∈ emitted_combos ∧
    j ∈ workflow_pair btype "win" python_version cu_version false prefix upload
          (effective_filter_branch filter_branch windows_latest_only PYTHON_VERSIONS
             ["cpu"; "cu117"; "cu118"; "cu121"] btype "win" python_version cu_version).
Proof.
  rewrite build_workflows_unfold, list_elem_of_bind. split.
  - intros ([[bt pv] cu] & Hj & Hc). by exists bt, pv, cu.
  - intros (bt & pv & cu & Hc & Hj). by exists (bt, pv, cu).
Qed.

(** A job of a Windows pair is the base job or, with uploads on, its upload
    job. *)
Lemma elem_of_workflow_pair_win btype python_version cu_version prefix upload fb j :
  let n := prefix +:+ job_suffix "win" btype python_version cu_version in
  j ∈ workflow_pair btype "win" python_version cu_version false prefix upload fb ↔
  j = generate_base_workflow n python_version cu_version false "win" btype fb ∨
  (upload = true ∧ j = generate_upload_workflow n "win" btype cu_version fb).
Proof.
  intros n. rewrite workflow_pair_eq. fold n. simpl.
  destruct upload; rewrite ?elem_of_cons, ?elem_of_nil; intuition congruence.
Qed.

Lemma fmap_bind {A B C} (f : B → C) (g : A → list B) (l : list A) :
  f <$> (l ≫= g) = l ≫= λ x, f <$> g x.
Proof.
  induction l as [|x l IH]; [reflexivity|].
  change (f <$> (g x ++ (l ≫= g))%list = ((f <$> g x) ++ (l ≫= λ x, f <$> g x))%list).
  by rewrite fmap_app, IH.
Qed.

(** * Names *)

Lemma build_workflows_names prefix filter_branch upload windows_latest_only :
  job_name <$> build_workflows prefix filter_branch upload windows_latest_only =
  (λ s, Some (PStr (prefix +:+ s))) <$> emitted_suffixes upload.
Proof.
  rewrite build_workflows_unfold. unfold emitted_suffixes.
  rewrite !fmap_bind. apply list_bind_ext; [|done].
  intros [[bt pv] cu]. rewrite workflow_pair_eq. simpl.
  rewrite base_name. destruct upload; [|done].
  simpl. by rewrite upload_name, str_app_assoc.
Qed.

Lemma emitted_suffixes_NoDup upload : NoDup (emitted_suffixes upload).
Proof. destruct upload; apply (bool_decide_unpack _); by vm_compute. Qed.

Lemma build_workflows_names_NoDup prefix filter_branch upload windows_latest_only :
  NoDup (job_name <$> build_workflows prefix filter_branch upload windows_latest_only).
Proof.
  rewrite build_workflows_names. apply NoDup_fmap_2; [|apply emitted_suffixes_NoDup].
  intros s1 s2 Heq. by simplify_eq.
Qed.

(** C3: in one generation run, whatever the options, the [name] fields of
    the emitted descriptors, base and upload together, are pairwise
    distinct. *)
Theorem job_names_unique prefix filter_branch upload windows_latest_only :
  NoDup (job_name <$> build_workflows prefix filter_branch upload windows_latest_only).
Proof. apply build_workflows_names_NoDup. Qed.

(** * Windows only *)

(** C10: with the current axis tables and skip rules every emitted
    descriptor, for any options, comes from a Windows combination (a wheel or
    a conda build on ["win"]), and none carries a [wheel_docker_image],
    [conda_docker_image] or [unicode_abi] field. *)
Theorem only_windows_jobs prefix filter_branch upload windows_latest_only :
  Forall (λ j,
    (∃ btype python_version cu_version fb,
       btype ∈ ["wheel"; "conda"] ∧
       j ∈ workflow_pair btype "win" python_version cu_version false prefix upload fb) ∧
    job_key j ∈ ["binary_win_wheel"; "binary_win_conda";
                 "binary_wheel_upload"; "binary_conda_upload"] ∧
    job_fields j !! "wheel_docker_image" = None ∧
    job_fields j !! "conda_docker_image" = None ∧
    job_fields j !! "unicode_abi" = None)
    (build_workflows prefix filter_branch upload windows_latest_only).
Proof.
  apply Forall_forall. intros j Hj.
  apply elem_of_build_workflows in Hj as (bt & pv & cu & Hc & Hj).
  apply elem_of_emitted_combos in Hc as (Hbt & _ & _).
  split; [by eauto 6|].
  apply elem_of_workflow_pair_win in Hj as [->|[_ ->]].
  - split.
    + repeat (apply elem_of_cons in Hbt as [->|Hbt]);
        [apply (bool_decide_unpack _); by vm_compute..|].
      by apply elem_of_nil in Hbt.
    + repeat split; apply base_win_no_image; apply (bool_decide_unpack _); by vm_compute.
  - split.
    + repeat (apply elem_of_cons in Hbt as [->|Hbt]);
        [apply (bool_decide_unpack _); by vm_compute..|].
      by apply elem_of_nil in Hbt.
    + repeat split; apply upload_no_image; apply (bool_decide_unpack _); by vm_compute.
Qed.

(** C5: for (win, conda, 3.9, cu118) with an empty prefix and
    [unicode = False], the generated base descriptor is named
    ["binary_win_conda_py3.9_cu118"] and has no [wheel_docker_image], no
    [conda_docker_image] and no [unicode_abi] field; it is the first job of
    its pair and part of the generated list. *)
Theorem windows_conda_py39_cu118 filter_branch upload windows_latest_only :
  let fb := effective_filter_branch filter_branch windows_latest_only PYTHON_VERSIONS
              ["cpu"; "cu117"; "cu118"; "cu121"] "conda" "win" "3.9" "cu118" in
  ∃ base,
    head (workflow_pair "conda" "win" "3.9" "cu118" false "" upload fb) = Some base ∧
    base ∈ build_workflows "" filter_branch upload windows_latest_only ∧
    job_key base = "binary_win_conda" ∧
    job_name base = Some (PStr "binary_win_conda_py3.9_cu118") ∧
    job_fields base !! "wheel_docker_image" = None ∧
    job_fields base !! "conda_docker_image" = None ∧
    job_fields base !! "unicode_abi" = None.
Proof.
  intros fb. eexists. split; [by rewrite workflow_pair_eq|].
  split.
  { apply elem_of_build_workflows. exists "conda", "3.9", "cu118". split.
    - apply (bool_decide_unpack _). by vm_compute.
    - apply elem_of_workflow_pair_win. by left. }
  split; [reflexivity|]. split; [apply base_name|].
  repeat split; apply base_win_no_image; apply (bool_decide_unpack _); by vm_compute.
Qed.

(** * Filter clauses *)

(** C7: whenever an emitted descriptor, base or upload, carries a [filters]
    clause with a [tags] entry, that entry holds exactly the
    release-candidate pattern. *)
Theorem tags_filter_is_rc_pattern prefix filter_branch upload windows_latest_only j f t :
  j ∈ build_workflows prefix filter_branch upload windows_latest_only →
  job_fields j !! "filters" = Some (PDict f) →
  f !! "tags" = Some t →
  t = PDict {[ "only" := PStr RC_PATTERN ]}.
Proof.
  intros Hj Hf Ht.
  apply elem_of_build_workflows in Hj as (bt & pv & cu & _ & Hj).
  apply elem_of_workflow_pair_win in Hj as [->|[_ ->]].
  - rewrite base_filters in Hf.
    destruct (effective_filter_branch _ _ _ _ _ _ _ _) as [fb|]; [|done].
    injection Hf as <-. by injection Ht as <-.
  - rewrite upload_filters in Hf.
    destruct (effective_filter_branch _ _ _ _ _ _ _ _) as [fb|]; [|done].
    injection Hf as <-. by injection Ht as <-.
Qed.

(** The upload job of (win, wheel, 3.8, cpu) in a run filtered on the
    ["nightly"] branch. *)
Lemma tags_filter_is_rc_pattern_witness :
  PDict {[ "only" := PStr "/v[0-9]+(\.[0-9]+)*-rc[0-9]+/" ]}
  = PDict {[ "only" := PStr RC_PATTERN ]}.
Proof.
  apply (tags_filter_is_rc_pattern "" (Some "nightly") true false
           (generate_upload_workflow "binary_win_wheel_py3.8_cpu" "win" "wheel" "cpu"
              (Some "nightly"))
           {[ "branches" := PDict {[ "only" := PStr "nightly" ]};
              "tags" := PDict {[ "only" := PStr "/v[0-9]+(\.[0-9]+)*-rc[0-9]+/" ]} ]}).
  - apply elem_of_build_workflows. exists "wheel", "3.8", "cpu". split.
    + apply (bool_decide_unpack _). by vm_compute.
    + apply elem_of_workflow_pair_win. right. split; reflexivity.
  - reflexivity.
  - reflexivity.
Defined.

(** * Unrecognised compute variants *)

(** C9, as stated, fails: for a non-Windows base descriptor built from the
    unrecognised variant ["xpu"], the key [wheel_docker_image] is in the
    mapping. *)
Lemma unrecognised_variant_field_present :
  "linux" ≠ "win" ∧ "xpu" ≠ "cpu" ∧
  startswith "cu" "xpu" = false ∧ startswith "rocm" "xpu" = false ∧
  job_fields (generate_base_workflow "binary_linux_wheel_py3.8_xpu" "3.8" "xpu" false
                "linux" "wheel" None) !! "wheel_docker_image" ≠ None.
Proof. repeat split; discriminate. Qed.

(** C9, amended: for a non-Windows base descriptor built from a variant
    that is not ["cpu"] and starts with neither ["cu"] nor ["rocm"], the
    construction succeeds and the descriptor carries [wheel_docker_image]
    with the value [None]; [conda_docker_image] is [None] as well, unless
    ["rocm"] occurs inside the variant, in which case that key is absent. *)
Theorem unrecognised_variant_image_is_none
    n python_version cu_version unicode os_type btype filter_branch :
  os_type ≠ "win" →
  cu_version ≠ "cpu" →
  startswith "cu" cu_version = false →
  startswith "rocm" cu_version = false →
  let d := job_fields (generate_base_workflow n python_version cu_version unicode
                         os_type btype filter_branch) in
  d !! "wheel_docker_image" = Some PNone ∧
  d !! "conda_docker_image" =
    (if str_contains "rocm" cu_version then None else Some PNone).
Proof.
  intros Hos%String.eqb_neq Hcpu%String.eqb_neq Hcu Hrocm.
  unfold generate_base_workflow, get_manylinux_image, get_conda_image.
  rewrite Hos, Hcpu, Hcu, Hrocm. simpl job_fields.
  by destruct unicode, (str_contains "rocm" cu_version), filter_branch.
Qed.

(** The Linux wheel descriptor for the variant ["xpu"]. *)
Lemma unrecognised_variant_image_is_none_witness :
  let d := job_fields (generate_base_workflow "binary_linux_wheel_py3.8_xpu" "3.8" "xpu"
                         false "linux" "wheel" None) in
  d !! "wheel_docker_image" = Some PNone ∧
  d !! "conda_docker_image" = (if str_contains "rocm" "xpu" then None else Some PNone).
Proof.
  apply (unrecognised_variant_image_is_none "binary_linux_wheel_py3.8_xpu" "3.8" "xpu"
           false "linux" "wheel" None); [discriminate | discriminate | reflexivity..].
Defined.

(** * The Linux wheel combination kept for the documentation build *)

(** C2, as stated, fails: with no branch filter the combination
    (linux, wheel, cpu, 3.8) adds nothing to the list, and no emitted
    descriptor has the name of its base job or a [filters] clause for the
    branch ["/.*/"]. *)
Lemma docs_anchor_not_emitted :
  build_workflows_combo "" None false false PYTHON_VERSIONS
    ["cpu"; "cu117"; "cu118"; "cu121"; "rocm5.2"; "rocm5.3"]
    "wheel" "linux" "3.8" "cpu" = [] ∧
  Forall (λ j, job_name j ≠ Some (PStr "binary_linux_wheel_py3.8_cpu") ∧
               job_fields j !! "filters" ≠ Some (filters_literal "/.*/"))
    (build_workflows "" None false false).
Proof.
  split; [reflexivity|].
  apply Forall_forall. intros j Hj.
  apply elem_of_build_workflows in Hj as (bt & pv & cu & Hc & Hj).
  apply elem_of_workflow_pair_win in Hj as [->|[[=] _]].
  rewrite base_name, base_filters. split.
  - intros [=].
  - by unfold effective_filter_branch.
Qed.

(** C2, amended: for (linux, wheel, cpu, 3.8) with no explicit branch filter
    the loop body computes the branch filter ["/.*/"], and [workflow_pair]
    called for that combination returns the base descriptor alone, with a
    [filters] clause for the branch ["/.*/"] and never an upload descriptor,
    whatever the [upload] flag; [build_workflows] itself adds nothing for
    the combination, because Linux wheels are disabled. *)
Theorem docs_anchor_linux_wheel prefix upload windows_latest_only :
  let cu_versions := ["cpu"; "cu117"; "cu118"; "cu121"; "rocm5.2"; "rocm5.3"] in
  let fb := effective_filter_branch None windows_latest_only PYTHON_VERSIONS
              cu_versions "wheel" "linux" "3.8" "cpu" in
  cu_versions_dict !! "linux" = Some cu_versions ∧
  fb = Some "/.*/" ∧
  (∃ base,
     workflow_pair "wheel" "linux" "3.8" "cpu" false prefix upload fb = [base] ∧
     is_upload base = false ∧
     job_name base = Some (PStr (prefix +:+ "binary_linux_wheel_py3.8_cpu")) ∧
     job_fields base !! "filters" = Some (filters_literal "/.*/")) ∧
  build_workflows_combo prefix None upload windows_latest_only PYTHON_VERSIONS
    cu_versions "wheel" "linux" "3.8" "cpu" = [].
Proof.
  intros cus fb.
  assert (Hfb : fb = Some "/.*/") by (by destruct windows_latest_only).
  split; [reflexivity|]. split; [exact Hfb|]. split; [|reflexivity].
  rewrite Hfb. eexists. split; [by rewrite workflow_pair_eq|].
  by rewrite base_not_upload, base_name, base_filters.
Qed.

(** * Windows combinations *)

(** On Windows only the [windows_latest_only] override can change the branch
    filter. *)
Lemma effective_filter_branch_win
    filter_branch windows_latest_only python_versions cu_versions btype
    python_version cu_version :
  effective_filter_branch filter_branch windows_latest_only python_versions
    cu_versions btype "win" python_version cu_version =
  if windows_latest_only
     && bool_decide (filter_branch = None)
     && (negb (bool_decide (Some python_version = last_item python_versions))
         || negb (bool_decide (Some cu_version = first_item cu_versions)
                  || bool_decide (Some cu_version = last_item cu_versions)))
  then Some "main" else filter_branch.
Proof.
  unfold effective_filter_branch.
  replace (windows_latest_only && ("win" =? "win")) with windows_latest_only
    by (by destruct windows_latest_only).
  match goal with |- context [if ?c then Some "main" else _] => destruct c end;
    [reflexivity|].
  by destruct (py_truthy filter_branch).
Qed.

(** A Windows combination whose variant is not a ROCm one passes every skip
    test. *)
Lemma build_workflows_combo_win
    prefix filter_branch upload windows_latest_only python_versions cu_versions
    btype python_version cu_version :
  startswith "rocm" cu_version = false →
  build_workflows_combo prefix filter_branch upload windows_latest_only
    python_versions cu_versions btype "win" python_version cu_version =
  workflow_pair btype "win" python_version cu_version false prefix upload
    (effective_filter_branch filter_branch windows_latest_only python_versions
       cu_versions btype "win" python_version cu_version).
Proof.
  intros Hrocm. unfold build_workflows_combo. rewrite Hrocm.
  change (build_workflows_body prefix filter_branch upload windows_latest_only
            python_versions cu_versions btype "win" python_version cu_version false
          ++ [] = workflow_pair btype "win" python_version cu_version false prefix upload
            (effective_filter_branch filter_branch windows_latest_only python_versions
               cu_versions btype "win" python_version cu_version))%list.
  by rewrite app_nil_r.
Qed.

Lemma windows_variants_not_rocm cu_version :
  cu_version ∈ ["cpu"; "cu117"; "cu118"; "cu121"] →
  startswith "rocm" cu_version = false.
Proof.
  intros H. repeat (apply elem_of_cons in H as [->|H]); [reflexivity..|].
  by apply elem_of_nil in H.
Qed.

(** C8: with [windows_latest_only] set, [filter_branch] not given and
    OS ["win"], every processed combination emits its descriptors; when the
    Python version is not the last of the version list, or the compute
    variant is neither the first nor the last of the Windows variant list,
    the branch filter is ["main"] and the descriptors carry the clause for
    ["main"]; otherwise the filter stays [None] and no clause is attached. *)
Theorem windows_latest_only_filter
    prefix upload btype python_version cu_version cu_versions :
  btype ∈ ["wheel"; "conda"] →
  python_version ∈ PYTHON_VERSIONS →
  cu_versions_dict !! "win" = Some cu_versions →
  cu_version ∈ cu_versions →
  let newest := Some python_version = last_item PYTHON_VERSIONS in
  let boundary := Some cu_version = first_item cu_versions
                  ∨ Some cu_version = last_item cu_versions in
  let fb := effective_filter_branch None true PYTHON_VERSIONS cu_versions
              btype "win" python_version cu_version in
  let emitted := build_workflows_combo prefix None upload true PYTHON_VERSIONS
                   cu_versions btype "win" python_version cu_version in
  emitted ≠ [] ∧
  emitted ⊆ build_workflows prefix None upload true ∧
  (¬ newest ∨ ¬ boundary →
     fb = Some "main" ∧
     Forall (λ j, job_fields j !! "filters" = Some (filters_literal "main")) emitted) ∧
  (newest ∧ boundary →
     fb = None ∧ Forall (λ j, job_fields j !! "filters" = None) emitted).
Proof.
  intros Hbt Hpv Hcus Hcu newest boundary fb emitted.
  rewrite cu_versions_win in Hcus. injection Hcus as <-.
  assert (Hem : emitted = workflow_pair btype "win" python_version cu_version false
                            prefix upload fb)
    by (by apply build_workflows_combo_win, windows_variants_not_rocm).
  assert (Hfilters : Forall (λ j, job_fields j !! "filters" = filters_literal <$> fb)
                       emitted).
  { rewrite Hem, workflow_pair_eq. simpl. constructor; [apply base_filters|].
    destruct upload; constructor; [apply upload_filters | constructor]. }
  assert (Hfb : fb = if negb (bool_decide newest) || negb (bool_decide boundary)
                     then Some "main" else None).
  { subst fb. rewrite effective_filter_branch_win. simpl.
    repeat case_bool_decide; try reflexivity; unfold boundary in *; tauto. }
  split; [rewrite Hem, workflow_pair_eq; discriminate|].
  split.
  { intros j Hj. rewrite Hem in Hj. apply elem_of_build_workflows.
    exists btype, python_version, cu_version. split; [|exact Hj].
    by apply elem_of_emitted_combos. }
  split.
  - intros Hcond.
    assert (fb = Some "main") as Hmain
      by (rewrite Hfb; repeat case_bool_decide; try reflexivity; tauto).
    split; [exact Hmain|]. by rewrite Hmain in Hfilters.
  - intros [Hn Hb].
    assert (fb = None) as Hnone
      by (rewrite Hfb; repeat case_bool_decide; try reflexivity; tauto).
    split; [exact Hnone|]. by rewrite Hnone in Hfilters.
Qed.

(** The combination (win, wheel, 3.8, cpu): an old Python version, so the
    filter is ["main"]. *)
Lemma windows_latest_only_filter_witness :
  let cu_versions := ["cpu"; "cu117"; "cu118"; "cu121"] in
  let newest := Some "3.8" = last_item PYTHON_VERSIONS in
  let boundary := Some "cpu" = first_item cu_versions
                  ∨ Some "cpu" = last_item cu_versions in
  let fb := effective_filter_branch None true PYTHON_VERSIONS cu_versions
              "wheel" "win" "3.8" "cpu" in
  let emitted := build_workflows_combo "" None true true PYTHON_VERSIONS
                   cu_versions "wheel" "win" "3.8" "cpu" in
  emitted ≠ [] ∧
  emitted ⊆ build_workflows "" None true true ∧
  (¬ newest ∨ ¬ boundary →
     fb = Some "main" ∧
     Forall (λ j, job_fields j !! "filters" = Some (filters_literal "main")) emitted) ∧
  (newest ∧ boundary →
     fb = None ∧ Forall (λ j, job_fields j !! "filters" = None) emitted).
Proof.
  apply (windows_latest_only_filter "" true "wheel" "3.8" "cpu"
           ["cpu"; "cu117"; "cu118"; "cu121"]).
  - apply list_elem_of_here.
  - apply list_elem_of_here.
  - reflexivity.
  - apply list_elem_of_here.
Defined.

(** * Skipped combinations *)

Lemma skip_rule_combo_nil
    prefix filter_branch upload windows_latest_only python_versions cu_versions
    btype os_type python_version cu_version :
  skip_rule btype os_type cu_version →
  build_workflows_combo prefix filter_branch upload windows_latest_only
    python_versions cu_versions btype os_type python_version cu_version = [].
Proof.
  unfold build_workflows_combo.
  intros [[-> ->]|[[-> ->]|[[-> Hos]|[-> Hrocm]]]].
  - by destruct (startswith "rocm" cu_version).
  - by destruct (startswith "rocm" cu_version).
  - destruct (startswith "rocm" cu_version); [reflexivity|].
    apply String.eqb_neq in Hos.
    change (build_workflows_body prefix filter_branch upload windows_latest_only
              python_versions cu_versions "conda" os_type python_version cu_version
              false ++ [] = [])%list.
    unfold build_workflows_body. rewrite Hos. by destruct (os_type =? "linux"), (os_type =? "macos").
  - by rewrite Hrocm.
Qed.

Lemma emitted_suffixes_win upload :
  Forall (λ s, startswith "binary_win_" s = true) (emitted_suffixes upload).
Proof. destruct upload; apply (bool_decide_unpack _); by vm_compute. Qed.

(** Every emitted name is the prefix followed by a Windows job name. *)
Lemma emitted_names_win prefix filter_branch upload windows_latest_only j :
  j ∈ build_workflows prefix filter_branch upload windows_latest_only →
  ∃ s, job_name j = Some (PStr (prefix +:+ s)) ∧ startswith "binary_win_" s = true.
Proof.
  intros Hj. apply (list_elem_of_fmap_2 job_name) in Hj.
  rewrite build_workflows_names in Hj.
  apply list_elem_of_fmap in Hj as (s & Hname & Hs).
  exists s. split; [exact Hname|].
  by apply (proj1 (Forall_forall _ _) (emitted_suffixes_win upload)).
Qed.

(** The jobs that [workflow_pair] builds for a Linux or macOS combination
    are not named like a Windows job. *)
Lemma workflow_pair_name_not_win
    btype os_type python_version cu_version prefix upload fb j s :
  os_type = "linux" ∨ os_type = "macos" →
  j ∈ workflow_pair btype os_type python_version cu_version false prefix upload fb →
  job_name j = Some (PStr (prefix +:+ s)) →
  startswith "binary_win_" s = false.
Proof.
  intros Hos Hj Hname. rewrite workflow_pair_eq in Hj.
  apply elem_of_cons in Hj as [->|Hj].
  - rewrite base_name in Hname. injection Hname as Hname.
    apply (inj _) in Hname. subst s. by destruct Hos as [-> | ->].
  - destruct (if (os_type =? "linux") && (btype =? "wheel") then false else upload);
      [|by apply elem_of_nil in Hj].
    apply list_elem_of_singleton in Hj as ->.
    rewrite upload_name, str_app_assoc in Hname. injection Hname as Hname.
    apply (inj _) in Hname. subst s. by destruct Hos as [-> | ->].
Qed.

(** C1: an axis combination that matches a skip rule (wheel on Linux, wheel
    on macOS, conda on an OS other than Windows, conda with a ROCm variant)
    adds nothing to the list, and no emitted descriptor is one that
    [workflow_pair] would build for it, base or upload, whatever the
    options. *)
Theorem skipped_combinations_emit_nothing
    prefix filter_branch upload windows_latest_only python_versions cu_versions
    btype os_type python_version cu_version :
  os_type ∈ ["linux"; "macos"; "win"] →
  cu_versions_dict !! os_type = Some cu_versions →
  cu_version ∈ cu_versions →
  skip_rule btype os_type cu_version →
  build_workflows_combo prefix filter_branch upload windows_latest_only
    python_versions cu_versions btype os_type python_version cu_version = [] ∧
  ∀ j upload' fb',
    j ∈ workflow_pair btype os_type python_version cu_version false prefix upload' fb' →
    j ∉ build_workflows prefix filter_branch upload windows_latest_only.
Proof.
  intros Hos Hcus Hcu Hskip. split; [by apply skip_rule_combo_nil|].
  intros j upload' fb' Hpair Hout.
  apply emitted_names_win in Hout as (s & Hname & Hs).
  assert (os_type = "linux" ∨ os_type = "macos" ∨ os_type = "win") as [Hl|[Hm|Hw]].
  { repeat (apply elem_of_cons in Hos as [->|Hos]); auto.
    by apply elem_of_nil in Hos. }
  - rewrite (workflow_pair_name_not_win _ _ _ _ _ _ _ _ _ (or_introl Hl) Hpair Hname)
      in Hs. discriminate.
  - rewrite (workflow_pair_name_not_win _ _ _ _ _ _ _ _ _ (or_intror Hm) Hpair Hname)
      in Hs. discriminate.
  - subst os_type. rewrite cu_versions_win in Hcus. injection Hcus as <-.
    apply windows_variants_not_rocm in Hcu.
    destruct Hskip as [[_ [=]]|[[_ [=]]|[[_ Hne]|[_ Hrocm]]]]; [done|].
    rewrite Hcu in Hrocm. discriminate.
Qed.

(** The combination (linux, conda, 3.8, rocm5.2). *)
Lemma skipped_combinations_emit_nothing_witness :
  build_workflows_combo "" None true false PYTHON_VERSIONS
    ["cpu"; "cu117"; "cu118"; "cu121"; "rocm5.2"; "rocm5.3"]
    "conda" "linux" "3.8" "rocm5.2" = [] ∧
  ∀ j upload' fb',
    j ∈ workflow_pair "conda" "linux" "3.8" "rocm5.2" false "" upload' fb' →
    j ∉ build_workflows "" None true false.
Proof.
  apply (skipped_combinations_emit_nothing "" None true false PYTHON_VERSIONS
           ["cpu"; "cu117"; "cu118"; "cu121"; "rocm5.2"; "rocm5.3"]
           "conda" "linux" "3.8" "rocm5.2").
  - apply list_elem_of_here.
  - reflexivity.
  - do 4 apply list_elem_of_further. apply list_elem_of_here.
  - right; right; right. split; reflexivity.
Defined.

(** * Upload jobs and the base jobs they require *)

(** When every piece of a concatenation is a base job, optionally followed by
    an upload job that requires it, each upload job of the whole list has its
    base job at a smaller position. *)
Lemma upload_preceded_by_base {A} (f : A → list Job) (l : list A) :
  (∀ x, x ∈ l → ∃ b n,
     is_upload b = false ∧ job_name b = Some (PStr n) ∧
     (f x = [b] ∨
      ∃ u, f x = [b; u] ∧ job_fields u !! "requires" = Some (PList [PStr n]))) →
  ∀ i u, (l ≫= f) !! i = Some u → is_upload u = true →
  ∃ n k b,
    job_fields u !! "requires" = Some (PList [PStr n]) ∧ k < i ∧
    (l ≫= f) !! k = Some b ∧ is_upload b = false ∧ job_name b = Some (PStr n).
Proof.
  induction l as [|x l IH]; intros Hall i u Hi Hu; [done|].
  change ((x :: l) ≫= f) with (f x ++ (l ≫= f))%list in *.
  destruct (Hall x (list_elem_of_here _ _)) as (b & n & Hb & Hn & Hshape).
  destruct (decide (i < length (f x))) as [Hlt|Hge].
  - rewrite lookup_app_l in Hi by done.
    destruct Hshape as [Hf|(u' & Hf & Hreq)]; rewrite Hf in *.
    + destruct i as [|i]; [|simpl in Hlt; lia].
      injection Hi as ->. congruence.
    + destruct i as [|[|i]]; [| |simpl in Hlt; lia].
      * injection Hi as ->. congruence.
      * injection Hi as ->. exists n, 0, b.
        split; [exact Hreq|]. split; [lia|]. split; [reflexivity|]. by split.
  - rewrite lookup_app_r in Hi by lia.
    destruct (IH (λ y Hy, Hall y (list_elem_of_further _ _ _ Hy)) _ _ Hi Hu)
      as (n' & k & b' & Hreq & Hk & Hlk & Hb' & Hn').
    exists n', (length (f x) + k), b'.
    split; [done|]. split; [lia|]. split; [|done].
    rewrite lookup_app_r by lia. by replace (length (f x) + k - length (f x)) with k by lia.
Qed.

(** C4: the [requires] field of every emitted upload descriptor holds
    exactly one name; a base descriptor with that name was emitted at a
    strictly smaller position, and no descriptor at any other position has
    that name. *)
Theorem upload_requires_earlier_base
    prefix filter_branch upload windows_latest_only i u :
  let jobs := build_workflows prefix filter_branch upload windows_latest_only in
  jobs !! i = Some u →
  is_upload u = true →
  ∃ n, job_fields u !! "requires" = Some (PList [PStr n]) ∧
  ∃ k b, k < i ∧ jobs !! k = Some b ∧ is_base b = true ∧
         job_name b = Some (PStr n) ∧
         ∀ k' b', jobs !! k' = Some b' → job_name b' = Some (PStr n) → k' = k.
Proof.
  intros jobs Hi Hu.
  pose proof (build_workflows_names_NoDup prefix filter_branch upload
                windows_latest_only) as Hnd. fold jobs in Hnd.
  assert (∃ n k b,
    job_fields u !! "requires" = Some (PList [PStr n]) ∧ k < i ∧
    jobs !! k = Some b ∧ is_upload b = false ∧ job_name b = Some (PStr n))
    as (n & k & b & Hreq & Hk & Hlk & Hb & Hn).
  { subst jobs. rewrite build_workflows_unfold in *.
    eapply upload_preceded_by_base; [|exact Hi|exact Hu].
    intros [[bt pv] cu] _. rewrite workflow_pair_eq.
    set (fb := effective_filter_branch _ _ _ _ _ _ _ _).
    set (n := prefix +:+ job_suffix "win" bt pv cu).
    exists (generate_base_workflow n pv cu false "win" bt fb), n.
    split; [apply base_not_upload|]. split; [apply base_name|].
    destruct upload; [right|by left].
    exists (generate_upload_workflow n "win" bt cu fb).
    split; [reflexivity|apply upload_requires]. }
  exists n. split; [done|]. exists k, b.
  split; [done|]. split; [done|]. split; [by unfold is_base; rewrite Hb|].
  split; [done|]. intros k' b' Hlk' Hn'.
  eapply NoDup_lookup; [exact Hnd| |].
  - by rewrite list_lookup_fmap, Hlk'; simpl; rewrite Hn'.
  - by rewrite list_lookup_fmap, Hlk; simpl; rewrite Hn.
Qed.

(** The second job of a run with uploads: the upload job of
    (win, wheel, 3.8, cpu). *)
Lemma upload_requires_earlier_base_witness :
  let jobs := build_workflows "" None true false in
  let u := generate_upload_workflow "binary_win_wheel_py3.8_cpu" "win" "wheel" "cpu"
             None in
  ∃ n, job_fields u !! "requires" = Some (PList [PStr n]) ∧
  ∃ k b, k < 1 ∧ jobs !! k = Some b ∧ is_base b = true ∧
         job_name b = Some (PStr n) ∧
         ∀ k' b', jobs !! k' = Some b' → job_name b' = Some (PStr n) → k' = k.
Proof.
  apply (upload_requires_earlier_base "" None true false 1
           (generate_upload_workflow "binary_win_wheel_py3.8_cpu" "win" "wheel" "cpu"
              None)).
  - reflexivity.
  - reflexivity.
Defined.

(** * More on the image look-ups *)

(** A string that starts with [p] is [p] followed by its slice after [p]. *)
Lemma startswith_drop p s :
  startswith p s = true → s = p +:+ str_drop (String.length p) s.
Proof.
  revert s. induction p as [|a p IH]; intros s H; [reflexivity|].
  destruct s as [|b s]; [discriminate|].
  unfold startswith in *. simpl in H.
  destruct (Ascii.ascii_dec a b) as [->|]; [|discriminate].
  change (String b s = String b (p +:+ str_drop (String.length p) s)).
  f_equal. by apply IH.
Qed.

Lemma startswith_app p s : startswith p (p +:+ s) = true.
Proof.
  unfold startswith. induction p as [|a p IH]; [by destruct s|].
  change (String.prefix (String a p) (String a (p +:+ s)) = true).
  simpl. by destruct (Ascii.ascii_dec a a).
Qed.

Lemma startswith_contains p s : startswith p s = true → str_contains p s = true.
Proof. intros H. destruct s; cbn [str_contains]; by rewrite H. Qed.

(** The values [get_manylinux_image] can take. *)
Lemma get_manylinux_image_cases cu_version :
  (cu_version = "cpu" ∧ get_manylinux_image cu_version = PStr "pytorch/manylinux-cpu") ∨
  (∃ s, cu_version = "cu" +:+ s ∧
        get_manylinux_image cu_version = PStr ("pytorch/manylinux-cuda" +:+ s)) ∨
  (∃ s, cu_version = "rocm" +:+ s ∧
        get_manylinux_image cu_version = PStr ("pytorch/manylinux-rocm:" +:+ s)) ∨
  (cu_version ≠ "cpu" ∧ startswith "cu" cu_version = false ∧
   startswith "rocm" cu_version = false ∧ get_manylinux_image cu_version = PNone).
Proof.
  unfold get_manylinux_image.
  destruct (String.eqb_spec cu_version "cpu") as [->|Hcpu]; [by left|].
  destruct (startswith "cu" cu_version) eqn:Hcu.
  { right; left. eexists. split; [by apply startswith_drop|reflexivity]. }
  destruct (startswith "rocm" cu_version) eqn:Hrocm.
  { right; right; left. eexists. split; [by apply startswith_drop|reflexivity]. }
  by right; right; right.
Qed.

Lemma get_conda_image_cases cu_version :
  (cu_version = "cpu" ∧ get_conda_image cu_version = PStr "pytorch/conda-builder:cpu") ∨
  (∃ s, cu_version = "cu" +:+ s ∧
        get_conda_image cu_version = PStr ("pytorch/conda-builder:cuda" +:+ s)) ∨
  (cu_version ≠ "cpu" ∧ startswith "cu" cu_version = false ∧
   get_conda_image cu_version = PNone).
Proof.
  unfold get_conda_image.
  destruct (String.eqb_spec cu_version "cpu") as [->|Hcpu]; [by left|].
  destruct (startswith "cu" cu_version) eqn:Hcu.
  { right; left. eexists. split; [by apply startswith_drop|reflexivity]. }
  by right; right.
Qed.

Ltac image_clash H := vm_compute in H; discriminate H.

(** Two variants with the same manylinux image are the same variant. *)
Theorem get_manylinux_image_inj a b :
  get_manylinux_image a ≠ PNone →
  get_manylinux_image a = get_manylinux_image b →
  a = b.
Proof.
  intros Hne Heq.
  destruct (get_manylinux_image_cases a)
    as [[-> Ha]|[(sa & -> & Ha)|[(sa & -> & Ha)|(_ & _ & _ & Ha)]]];
    [| | |congruence];
    destruct (get_manylinux_image_cases b)
      as [[-> Hb]|[(sb & -> & Hb)|[(sb & -> & Hb)|(_ & _ & _ & Hb)]]];
    rewrite ?Ha, ?Hb in Heq; try reflexivity; try (image_clash Heq);
    injection Heq as Heq; apply (inj _) in Heq; by subst.
Qed.

Lemma get_manylinux_image_inj_witness : "cu118" = "cu118".
Proof.
  apply (get_manylinux_image_inj "cu118" "cu118"); [discriminate|reflexivity].
Defined.

(** Two variants with the same conda image are the same variant. *)
Theorem get_conda_image_inj a b :
  get_conda_image a ≠ PNone →
  get_conda_image a = get_conda_image b →
  a = b.
Proof.
  intros Hne Heq.
  destruct (get_conda_image_cases a) as [[-> Ha]|[(sa & -> & Ha)|(_ & _ & Ha)]];
    [| |congruence];
    destruct (get_conda_image_cases b) as [[-> Hb]|[(sb & -> & Hb)|(_ & _ & Hb)]];
    rewrite ?Ha, ?Hb in Heq; try reflexivity; try (image_clash Heq);
    injection Heq as Heq; apply (inj _) in Heq; by subst.
Qed.

Lemma get_conda_image_inj_witness : "cu117" = "cu117".
Proof.
  apply (get_conda_image_inj "cu117" "cu117"); [discriminate|reflexivity].
Defined.

(** A variant without a manylinux image has no conda image either, and the
    variants with a manylinux image but no conda image are exactly the ROCm
    ones. *)
Theorem conda_image_needs_manylinux_image cu_version :
  (get_manylinux_image cu_version = PNone → get_conda_image cu_version = PNone) ∧
  (get_manylinux_image cu_version ≠ PNone ∧ get_conda_image cu_version = PNone
   ↔ startswith "rocm" cu_version = true).
Proof.
  unfold get_manylinux_image, get_conda_image.
  destruct (String.eqb_spec cu_version "cpu") as [->|Hcpu].
  { split; [discriminate|]. split; [by intros [_ [=]]|discriminate]. }
  destruct (startswith "cu" cu_version) eqn:Hcu.
  { split; [discriminate|]. split; [by intros [_ [=]]|].
    intros Hrocm. apply startswith_drop in Hcu, Hrocm.
    rewrite Hrocm in Hcu. image_clash Hcu. }
  destruct (startswith "rocm" cu_version);
    (split; [done|]); split; try done; by intros [? ?].
Qed.

(** [get_manylinux_image] agrees with the module's [manylinux_images]
    table on every key of the table. *)
Theorem manylinux_images_agree k v :
  manylinux_images !! k = Some v → get_manylinux_image k = PStr v.
Proof.
  unfold manylinux_images. intros H.
  repeat (rewrite lookup_insert in H; case_decide;
          [injection H as <-; subst k; reflexivity|]).
  rewrite lookup_singleton in H.
  case_decide; [injection H as <-; subst k; reflexivity|done].
Qed.

Lemma manylinux_images_agree_witness :
  get_manylinux_image "cu121" = PStr "pytorch/manylinux-cuda121".
Proof. apply (manylinux_images_agree "cu121"). reflexivity. Defined.

(** * Base descriptors off Windows *)

Section base_images.
Context (n python_version cu_version os_type btype : string).
Context (unicode : bool) (filter_branch : option string).
Context (Hos : os_type ≠ "win").

Let d :=
  job_fields (generate_base_workflow n python_version cu_version unicode os_type
                btype filter_branch).

Lemma base_wheel_image :
  d !! "wheel_docker_image" = Some (get_manylinux_image cu_version).
Proof using Hos.
  subst d. unfold generate_base_workflow.
  apply String.eqb_neq in Hos. rewrite Hos. simpl job_fields.
  by destruct unicode, (str_contains "rocm" cu_version), filter_branch.
Qed.

Lemma base_conda_image :
  d !! "conda_docker_image" =
  if str_contains "rocm" cu_version then None else Some (get_conda_image cu_version).
Proof using Hos.
  subst d. unfold generate_base_workflow.
  apply String.eqb_neq in Hos. rewrite Hos. simpl job_fields.
  by destruct unicode, (str_contains "rocm" cu_version), filter_branch.
Qed.

Lemma base_unicode_abi :
  d !! "unicode_abi" = if unicode then Some (PStr "1") else None.
Proof using Hos.
  subst d. unfold generate_base_workflow.
  apply String.eqb_neq in Hos. rewrite Hos. simpl job_fields.
  by destruct unicode, (str_contains "rocm" cu_version), filter_branch.
Qed.
End base_images.

(** Off Windows, a variant that has a manylinux image gives a descriptor
    whose image fields are never [None]: [wheel_docker_image] is a string,
    and [conda_docker_image] is a string or is left out. *)
Theorem recognised_variant_images_are_strings
    n python_version cu_version unicode os_type btype filter_branch :
  os_type ≠ "win" →
  get_manylinux_image cu_version ≠ PNone →
  let d := job_fields (generate_base_workflow n python_version cu_version unicode
                         os_type btype filter_branch) in
  (∃ s, d !! "wheel_docker_image" = Some (PStr s)) ∧
  (d !! "conda_docker_image" = None ∨ ∃ s, d !! "conda_docker_image" = Some (PStr s)).
Proof.
  intros Hos Himg d. subst d.
  rewrite base_wheel_image, base_conda_image by done.
  destruct (get_manylinux_image_cases cu_version)
    as [[-> Hw]|[(s & -> & Hw)|[(s & -> & Hw)|(_ & _ & _ & Hw)]]]; [| | |congruence].
  - split; [eexists; reflexivity|]. right. eexists. reflexivity.
  - rewrite Hw. split; [eexists; reflexivity|].
    destruct (str_contains "rocm" ("cu" +:+ s)); [by left|right].
    destruct (get_conda_image_cases ("cu" +:+ s))
      as [[_ Hc]|[(s' & _ & Hc)|(_ & Hcu & _)]];
      [rewrite Hc; eexists; reflexivity..|by rewrite startswith_app in Hcu].
  - rewrite Hw. split; [eexists; reflexivity|]. left.
    by rewrite (startswith_contains "rocm" ("rocm" +:+ s)) by apply startswith_app.
Qed.

Lemma recognised_variant_images_are_strings_witness :
  let d := job_fields (generate_base_workflow "binary_linux_wheel_py3.8_rocm5.2" "3.8"
                         "rocm5.2" false "linux" "wheel" None) in
  (∃ s, d !! "wheel_docker_image" = Some (PStr s)) ∧
  (d !! "conda_docker_image" = None ∨ ∃ s, d !! "conda_docker_image" = Some (PStr s)).
Proof.
  apply (recognised_variant_images_are_strings "binary_linux_wheel_py3.8_rocm5.2" "3.8"
           "rocm5.2" false "linux" "wheel" None); discriminate.
Defined.

(** The unicode and the plain build of one combination never share a base
    job name, and off Windows exactly the unicode build carries
    [unicode_abi]. *)
Theorem unicode_build_is_distinct
    btype os_type python_version cu_version prefix upload upload' fb fb' :
  os_type ≠ "win" →
  ∃ bu bp,
    head (workflow_pair btype os_type python_version cu_version true prefix upload fb)
      = Some bu ∧
    head (workflow_pair btype os_type python_version cu_version false prefix upload' fb')
      = Some bp ∧
    job_name bu ≠ job_name bp ∧
    job_fields bu !! "unicode_abi" = Some (PStr "1") ∧
    job_fields bp !! "unicode_abi" = None.
Proof.
  intros Hos. unfold workflow_pair.
  eexists _, _. split; [by destruct (if _ && _ then false else upload)|].
  split; [by destruct (if _ && _ then false else upload')|].
  rewrite !base_name, !base_unicode_abi by done. split; [|done].
  intros [= H]. do 7 apply (inj (String.append _)) in H. discriminate H.
Qed.

Lemma unicode_build_is_distinct_witness :
  ∃ bu bp,
    head (workflow_pair "wheel" "linux" "3.8" "cpu" true "" false None) = Some bu ∧
    head (workflow_pair "wheel" "linux" "3.8" "cpu" false "" false None) = Some bp ∧
    job_name bu ≠ job_name bp ∧
    job_fields bu !! "unicode_abi" = Some (PStr "1") ∧
    job_fields bp !! "unicode_abi" = None.
Proof.
  apply (unicode_build_is_distinct "wheel" "linux" "3.8" "cpu" "" false false None None).
  discriminate.
Defined.

(** * Smoke-test descriptors and the branch filter tree *)

Lemma str_app_empty_r s : s +:+ "" = s.
Proof.
  induction s as [|a s IH]; [reflexivity|].
  change (String a (s +:+ "") = String a s). by rewrite IH.
Qed.


(** A smoke-test job requires exactly the upload job that
    [generate_upload_workflow] builds from the same base name, and its own
    name differs from the base name and from the upload job's name. *)
Theorem smoketest_requires_upload_job
    pydistro base_workflow_name filter_branch python_version os_type
    os_type' btype cu_version filter_branch' :
  let smoke := generate_smoketest_workflow pydistro base_workflow_name filter_branch
                 python_version os_type in
  let upl := generate_upload_workflow base_workflow_name os_type' btype cu_version
               filter_branch' in
  ∃ n, job_name upl = Some (PStr n) ∧
       job_fields smoke !! "requires" = Some (PList [PStr n]) ∧
       job_name smoke ≠ Some (PStr n) ∧
       job_name smoke ≠ Some (PStr base_workflow_name).
Proof.
  intros smoke upl. exists (base_workflow_name +:+ "_upload").
  split; [apply upload_name|].
  assert (Hname : job_name smoke =
            Some (PStr (base_workflow_name +:+ "_smoke_test_" +:+ pydistro))).
  { subst smoke. unfold generate_smoketest_workflow, job_name. simpl job_fields.
    by destruct filter_branch as [fb|]; [destruct (py_truthy (Some fb))|]. }
  split.
  { subst smoke. unfold generate_smoketest_workflow. simpl job_fields.
    by destruct filter_branch as [fb|]; [destruct (py_truthy (Some fb))|]. }
  rewrite Hname. split; intros [= H].
  - apply (inj (String.append _)) in H. discriminate H.
  - rewrite <- (str_app_empty_r base_workflow_name) in H at 2.
    apply (inj (String.append _)) in H. discriminate H.
Qed.

(** The smoke-test and the base builder treat the same branch filter
    differently. A base job gets a clause for every filter that is not
    [None], the empty string included, with the branch as a string and the
    tag pattern. A smoke-test job gets a clause only for a non-empty filter,
    with the branch as a one-element list and no [tags] entry. *)
Theorem smoketest_filter_vs_base_filter
    pydistro n filter_branch python_version os_type
    python_version' cu_version unicode os_type' btype :
  let smoke := generate_smoketest_workflow pydistro n filter_branch python_version
                 os_type in
  let base := generate_base_workflow n python_version' cu_version unicode os_type'
                btype filter_branch in
  match filter_branch with
  | None =>
      job_fields smoke !! "filters" = None ∧ job_fields base !! "filters" = None
  | Some fb =>
      job_fields base !! "filters" = Some (filters_literal fb) ∧
      job_fields smoke !! "filters" =
        if fb =? "" then None
        else Some (PDict {[ "branches" := PDict {[ "only" := PList [PStr fb] ]} ]})
  end.
Proof.
  intros smoke base. subst smoke base. rewrite base_filters.
  unfold generate_smoketest_workflow. simpl job_fields.
  destruct filter_branch as [fb|]; [|by split].
  split; [reflexivity|]. unfold py_truthy. by destruct (fb =? "").
Qed.

(** * The effective branch filter *)

(** A non-empty explicit branch filter is never overridden, for any
    combination and either setting of [windows_latest_only]. *)
Theorem explicit_filter_is_kept
    fb windows_latest_only python_versions cu_versions btype os_type
    python_version cu_version :
  fb ≠ "" →
  effective_filter_branch (Some fb) windows_latest_only python_versions cu_versions
    btype os_type python_version cu_version = Some fb.
Proof.
  intros Hfb%String.eqb_neq. unfold effective_filter_branch.
  rewrite bool_decide_eq_false_2 by discriminate.
  rewrite !andb_false_r. simpl. by rewrite Hfb.
Qed.

Lemma explicit_filter_is_kept_witness :
  effective_filter_branch (Some "nightly") true PYTHON_VERSIONS
    ["cpu"; "cu117"; "cu118"; "cu121"] "wheel" "win" "3.8" "cu117" = Some "nightly".
Proof.
  apply (explicit_filter_is_kept "nightly" true PYTHON_VERSIONS
           ["cpu"; "cu117"; "cu118"; "cu121"] "wheel" "win" "3.8" "cu117").
  discriminate.
Defined.

(** The empty string counts as a given filter for the Windows rule, which
    never turns it into ["main"], and as a missing one for the
    documentation rule, which turns it into ["/.*/"] on
    (linux, cpu, wheel, 3.8). *)
Theorem empty_filter_branch
    windows_latest_only python_versions cu_versions btype os_type
    python_version cu_version :
  effective_filter_branch (Some "") windows_latest_only python_versions cu_versions
    btype os_type python_version cu_version =
  if (os_type =? "linux") && (cu_version =? "cpu") && (btype =? "wheel")
     && (python_version =? "3.8")
  then Some "/.*/" else Some "".
Proof.
  unfold effective_filter_branch.
  rewrite bool_decide_eq_false_2 by discriminate.
  by rewrite !andb_false_r.
Qed.

(** Without an explicit filter the result is ["main"], ["/.*/"] or [None]:
    ["main"] needs [windows_latest_only] on Windows, ["/.*/"] needs the
    (linux, cpu, wheel, 3.8) combination. *)
Theorem default_filter_branch_values
    windows_latest_only python_versions cu_versions btype os_type
    python_version cu_version :
  let fb := effective_filter_branch None windows_latest_only python_versions
              cu_versions btype os_type python_version cu_version in
  (fb = Some "main" ∧ windows_latest_only = true ∧ os_type = "win") ∨
  (fb = Some "/.*/" ∧ os_type = "linux" ∧ cu_version = "cpu" ∧ btype = "wheel" ∧
   python_version = "3.8") ∨
  fb = None.
Proof.
  intros fb. subst fb. unfold effective_filter_branch.
  match goal with
  | |- context [if ?c then Some "main" else None] => destruct c eqn:Hmain
  end.
  - left. split; [reflexivity|].
    apply andb_true_iff in Hmain as [Hmain _].
    apply andb_true_iff in Hmain as [Hmain _].
    apply andb_true_iff in Hmain as [-> Hos].
    by apply String.eqb_eq in Hos.
  - simpl. match goal with
    | |- context [if ?c then Some "/.*/" else None] => destruct c eqn:Hdocs
    end; [|by right; right].
    right; left. split; [reflexivity|].
    apply andb_true_iff in Hdocs as [Hdocs Hpv].
    apply andb_true_iff in Hdocs as [Hdocs Hbt].
    apply andb_true_iff in Hdocs as [Hos Hcu].
    by repeat split; apply String.eqb_eq.
Qed.

(** * The generated list as a whole *)

(** There are 32 Windows combinations: the list has 32 jobs without uploads
    and 64 with, whatever the other options. *)
Theorem build_workflows_length prefix filter_branch upload windows_latest_only :
  length (build_workflows prefix filter_branch upload windows_latest_only) =
  if upload then 64 else 32.
Proof.
  rewrite <- (length_fmap job_name), build_workflows_names, length_fmap.
  by destruct upload.
Qed.

(** The prefix only renames: a run with a prefix has, position by position,
    the job types of the run with the empty prefix and its names with the
    prefix put in front, whatever the branch filter options of either run. *)
Theorem prefix_only_renames
    prefix filter_branch filter_branch' upload windows_latest_only
    windows_latest_only' :
  Forall2 (λ j j0,
      job_key j = job_key j0 ∧
      ∃ s, job_name j0 = Some (PStr s) ∧ job_name j = Some (PStr (prefix +:+ s)))
    (build_workflows prefix filter_branch upload windows_latest_only)
    (build_workflows "" filter_branch' upload windows_latest_only').
Proof.
  rewrite !build_workflows_unfold. apply Forall2_bind, Forall_Forall2_diag.
  apply Forall_forall. intros [[bt pv] cu] _. rewrite !workflow_pair_eq. simpl.
  constructor.
  { split; [reflexivity|]. exists (job_suffix "win" bt pv cu).
    by rewrite !base_name. }
  destruct upload; constructor; [|constructor].
  split; [reflexivity|]. exists (job_suffix "win" bt pv cu +:+ "_upload").
  rewrite !upload_name, !str_app_assoc. split; reflexivity.
Qed.

(** An explicit branch filter, even the empty string, reaches every emitted
    job unchanged: each carries the clause for exactly that branch. *)
Theorem explicit_filter_reaches_every_job prefix fb upload windows_latest_only :
  Forall (λ j, job_fields j !! "filters" = Some (filters_literal fb))
    (build_workflows prefix (Some fb) upload windows_latest_only).
Proof.
  apply Forall_forall. intros j Hj.
  apply elem_of_build_workflows in Hj as (bt & pv & cu & _ & Hj).
  rewrite effective_filter_branch_win in Hj.
  rewrite bool_decide_eq_false_2, andb_false_r in Hj by discriminate.
  apply elem_of_workflow_pair_win in Hj as [->|[_ ->]].
  - by rewrite base_filters.
  - by rewrite upload_filters.
Qed.

(** With an explicit branch filter [windows_latest_only] changes nothing. *)
Theorem windows_latest_only_ignored_with_filter prefix fb upload windows_latest_only :
  build_workflows prefix (Some fb) upload windows_latest_only =
  build_workflows prefix (Some fb) upload false.
Proof.
  rewrite !build_workflows_unfold. apply list_bind_ext; [|done].
  intros [[bt pv] cu]. rewrite !effective_filter_branch_win.
  by rewrite bool_decide_eq_false_2, andb_false_r by discriminate.
Qed.

(** With neither a branch filter nor [windows_latest_only], no emitted job
    has a [filters] clause. *)
Theorem no_filter_by_default prefix upload :
  Forall (λ j, job_fields j !! "filters" = None)
    (build_workflows prefix None upload false).
Proof.
  apply Forall_forall. intros j Hj.
  apply elem_of_build_workflows in Hj as (bt & pv & cu & _ & Hj).
  rewrite effective_filter_branch_win in Hj. simpl in Hj.
  apply elem_of_workflow_pair_win in Hj as [->|[_ ->]].
  - by rewrite base_filters.
  - by rewrite upload_filters.
Qed.

(** In the emitted list the job type tells upload jobs from base jobs: a job
    requires another one exactly when its type is [binary_wheel_upload] or
    [binary_conda_upload]. *)
Theorem upload_jobs_by_type prefix filter_branch upload windows_latest_only :
  Forall (λ j, is_upload j =
               (job_key j =? "binary_wheel_upload") || (job_key j =? "binary_conda_upload"))
    (build_workflows prefix filter_branch upload windows_latest_only).
Proof.
  apply Forall_forall. intros j Hj.
  apply elem_of_build_workflows in Hj as (bt & pv & cu & Hc & Hj).
  apply elem_of_emitted_combos in Hc as (Hbt & _ & _).
  apply elem_of_workflow_pair_win in Hj as [->|[_ ->]].
  - rewrite base_not_upload.
    repeat (apply elem_of_cons in Hbt as [->|Hbt]); [reflexivity..|].
    by apply elem_of_nil in Hbt.
  - rewrite upload_is_upload.
    repeat (apply elem_of_cons in Hbt as [->|Hbt]); [reflexivity..|].
    by apply elem_of_nil in Hbt.
Qed.

(** Without uploads every emitted job is a base job. *)
Theorem no_upload_jobs_without_upload prefix filter_branch windows_latest_only :
  Forall (λ j, is_upload j = false ∧ job_fields j !! "requires" = None)
    (build_workflows prefix filter_branch false windows_latest_only).
Proof.
  apply Forall_forall. intros j Hj.
  apply elem_of_build_workflows in Hj as (bt & pv & cu & _ & Hj).
  apply elem_of_workflow_pair_win in Hj as [->|[[=] _]].
  pose proof (base_not_upload (prefix +:+ job_suffix "win" bt pv cu) pv cu "win" bt false
    (effective_filter_branch filter_branch windows_latest_only PYTHON_VERSIONS
       ["cpu"; "cu117"; "cu118"; "cu121"] bt "win" pv cu)) as Hb.
  split; [exact Hb|].
  unfold is_upload in Hb. apply bool_decide_eq_false in Hb.
  by apply eq_None_not_Some.
Qed.

(** Positions in a concatenation of two-element pieces. *)
Lemma bind_pair_lookup {A B} (f : A → list B) (g h : A → B) (l : list A) k :
  (∀ x, f x = [g x; h x]) →
  (l ≫= f) !! (2 * k) = g <$> l !! k ∧ (l ≫= f) !! (2 * k + 1) = h <$> l !! k.
Proof.
  intros Hf. revert k. induction l as [|x l IH]; intros k; [done|].
  change ((x :: l) ≫= f) with (f x ++ (l ≫= f))%list. rewrite Hf.
  destruct k as [|k]; [done|].
  replace (2 * S k) with (S (S (2 * k))) by lia.
  replace (S (S (2 * k)) + 1) with (S (S (2 * k + 1))) by lia.
  apply IH.
Qed.

(** With uploads on, the list is a sequence of (base job, upload job)
    pairs. *)
Lemma build_workflows_upload_pairs prefix filter_branch windows_latest_only k :
  let jobs := build_workflows prefix filter_branch true windows_latest_only in
  let fb btype python_version cu_version :=
    effective_filter_branch filter_branch windows_latest_only PYTHON_VERSIONS
      ["cpu"; "cu117"; "cu118"; "cu121"] btype "win" python_version cu_version in
  jobs !! (2 * k) =
    (λ '(bt, pv, cu),
       generate_base_workflow (prefix +:+ job_suffix "win" bt pv cu) pv cu false
         "win" bt (fb bt pv cu)) <$> emitted_combos !! k ∧
  jobs !! (2 * k + 1) =
    (λ '(bt, pv, cu),
       generate_upload_workflow (prefix +:+ job_suffix "win" bt pv cu) "win" bt cu
         (fb bt pv cu)) <$> emitted_combos !! k.
Proof.
  intros jobs fb. subst jobs. rewrite build_workflows_unfold.
  apply bind_pair_lookup. intros [[bt pv] cu]. by rewrite workflow_pair_eq.
Qed.

(** With uploads on, the job at every even position [2 * k] is a base job
    and the job right after it is its upload job: named after it, requiring
    it, in the [org-member] context and with the same [filters] clause. *)
Theorem upload_job_follows_its_base prefix filter_branch windows_latest_only k b :
  let jobs := build_workflows prefix filter_branch true windows_latest_only in
  jobs !! (2 * k) = Some b →
  is_upload b = false ∧
  ∃ u n, jobs !! (2 * k + 1) = Some u ∧ is_upload u = true ∧
         job_name b = Some (PStr n) ∧
         job_name u = Some (PStr (n +:+ "_upload")) ∧
         job_fields u !! "requires" = Some (PList [PStr n]) ∧
         job_fields u !! "context" = Some (PStr "org-member") ∧
         job_fields u !! "filters" = job_fields b !! "filters".
Proof.
  intros jobs Hb. subst jobs.
  destruct (build_workflows_upload_pairs prefix filter_branch windows_latest_only k)
    as [Hbase Hupl].
  rewrite Hbase in Hb. rewrite Hupl.
  destruct (emitted_combos !! k) as [[[bt pv] cu]|]; [|done].
  injection Hb as <-. split; [apply base_not_upload|].
  eexists _, (prefix +:+ job_suffix "win" bt pv cu). split; [reflexivity|].
  rewrite upload_is_upload, base_name, upload_name, upload_requires,
    upload_filters, base_filters.
  repeat split. unfold generate_upload_workflow. simpl job_fields.
  by destruct (bt =? "wheel"), (effective_filter_branch _ _ _ _ _ _ _ _).
Qed.

Lemma upload_job_follows_its_base_witness :
  let jobs := build_workflows "" None true false in
  let b := generate_base_workflow "binary_win_wheel_py3.8_cpu" "3.8" "cpu" false "win"
             "wheel" None in
  is_upload b = false ∧
  ∃ u n, jobs !! (2 * 0 + 1) = Some u ∧ is_upload u = true ∧
         job_name b = Some (PStr n) ∧
         job_name u = Some (PStr (n +:+ "_upload")) ∧
         job_fields u !! "requires" = Some (PList [PStr n]) ∧
         job_fields u !! "context" = Some (PStr "org-member") ∧
         job_fields u !! "filters" = job_fields b !! "filters".
Proof.
  apply (upload_job_follows_its_base "" None false 0). reflexivity.
Defined.

(** The upload job of a wheel build carries the [subfolder] named after the
    base job's compute variant, with a trailing slash; the upload job of a
    conda build has no [subfolder]. *)
Theorem upload_subfolder prefix filter_branch windows_latest_only k b u :
  let jobs := build_workflows prefix filter_branch true windows_latest_only in
  jobs !! (2 * k) = Some b →
  jobs !! (2 * k + 1) = Some u →
  ∃ cu, job_fields b !! "cu_version" = Some (PStr cu) ∧
        job_fields u !! "subfolder" =
        if job_key b =? "binary_win_wheel" then Some (PStr (cu +:+ "/")) else None.
Proof.
  intros jobs Hb Hu. subst jobs.
  destruct (build_workflows_upload_pairs prefix filter_branch windows_latest_only k)
    as [Hbase Hupl].
  rewrite Hbase in Hb. rewrite Hupl in Hu.
  destruct (emitted_combos !! k) as [[[bt pv] cu]|] eqn:Hk; [|done].
  injection Hb as <-. injection Hu as <-.
  apply list_elem_of_lookup_2, elem_of_emitted_combos in Hk as (Hbt & _ & _).
  exists cu. split; [apply base_cu_version|].
  unfold generate_upload_workflow. simpl job_fields.
  repeat (apply elem_of_cons in Hbt as [->|Hbt]);
    [by destruct (effective_filter_branch _ _ _ _ _ _ _ _)..|].
  by apply elem_of_nil in Hbt.
Qed.

Lemma upload_subfolder_witness :
  ∃ cu, job_fields (generate_base_workflow "binary_win_wheel_py3.8_cu117" "3.8" "cu117"
                      false "win" "wheel" None) !! "cu_version" = Some (PStr cu) ∧
        job_fields (generate_upload_workflow "binary_win_wheel_py3.8_cu117" "win" "wheel"
                      "cu117" None) !! "subfolder" =
        if job_key (generate_base_workflow "binary_win_wheel_py3.8_cu117" "3.8" "cu117"
                      false "win" "wheel" None) =? "binary_win_wheel"
        then Some (PStr (cu +:+ "/")) else None.
Proof.
  apply (upload_subfolder "" None false 1); reflexivity.
Defined.

(** Every Windows combination of the axes is built: its base job is in the
    list, with the combination in its type, its fields and its name. *)
Theorem every_windows_combination_is_built
    prefix filter_branch upload windows_latest_only btype python_version cu_version
    cu_versions :
  btype ∈ ["wheel"; "conda"] →
  python_version ∈ PYTHON_VERSIONS →
  cu_versions_dict !! "win" = Some cu_versions →
  cu_version ∈ cu_versions →
  ∃ b, b ∈ build_workflows prefix filter_branch upload windows_latest_only ∧
       is_upload b = false ∧
       job_key b = "binary_win_" +:+ btype ∧
       job_fields b !! "python_version" = Some (PStr python_version) ∧
       job_fields b !! "cu_version" = Some (PStr cu_version) ∧
       job_name b = Some (PStr (prefix +:+ "binary_win_" +:+ btype +:+ "_py"
                                  +:+ python_version +:+ "_" +:+ cu_version)).
Proof.
  intros Hbt Hpv Hcus Hcu. rewrite cu_versions_win in Hcus. injection Hcus as <-.
  eexists. split.
  { apply elem_of_build_workflows. exists btype, python_version, cu_version.
    split; [by apply elem_of_emitted_combos|].
    apply elem_of_workflow_pair_win. by left. }
  rewrite base_not_upload, base_python_version, base_cu_version, base_name.
  by repeat split.
Qed.

Lemma every_windows_combination_is_built_witness :
  ∃ b, b ∈ build_workflows "" None false false ∧
       is_upload b = false ∧
       job_key b = "binary_win_" +:+ "conda" ∧
       job_fields b !! "python_version" = Some (PStr "3.11") ∧
       job_fields b !! "cu_version" = Some (PStr "cu121") ∧
       job_name b = Some (PStr ("" +:+ "binary_win_" +:+ "conda" +:+ "_py"
                                  +:+ "3.11" +:+ "_" +:+ "cu121")).
Proof.
  apply (every_windows_combination_is_built "" None false false "conda" "3.11" "cu121"
           ["cpu"; "cu117"; "cu118"; "cu121"]).
  - apply list_elem_of_further, list_elem_of_here.
  - do 3 apply list_elem_of_further. apply list_elem_of_here.
  - reflexivity.
  - do 3 apply list_elem_of_further. apply list_elem_of_here.
Defined.

(** The name of every emitted base job can be read off the job itself: it is
    the prefix, the job type, ["_py"], the job's [python_version], ["_"] and
    the job's [cu_version], and these two fields are values of the axes. *)
Theorem base_job_name_from_fields prefix filter_branch upload windows_latest_only :
  Forall (λ j,
      is_upload j = true ∨
      ∃ pv cu,
        pv ∈ PYTHON_VERSIONS ∧ cu ∈ ["cpu"; "cu117"; "cu118"; "cu121"] ∧
        job_fields j !! "python_version" = Some (PStr pv) ∧
        job_fields j !! "cu_version" = Some (PStr cu) ∧
        job_name j = Some (PStr (prefix +:+ job_key j +:+ "_py" +:+ pv +:+ "_" +:+ cu)))
    (build_workflows prefix filter_branch upload windows_latest_only).
Proof.
  apply Forall_forall. intros j Hj.
  apply elem_of_build_workflows in Hj as (bt & pv & cu & Hc & Hj).
  apply elem_of_emitted_combos in Hc as (Hbt & Hpv & Hcu).
  apply elem_of_workflow_pair_win in Hj as [->|[_ ->]].
  - right. exists pv, cu.
    rewrite base_python_version, base_cu_version, base_name.
    repeat (split; [done|]). reflexivity.
  - left. apply upload_is_upload.
Qed.

(** * Order of the generated list *)

Lemma emitted_combos_lookup i j l btype python_version cu_version :
  ["wheel"; "conda"] !! i = Some btype →
  PYTHON_VERSIONS !! j = Some python_version →
  ["cpu"; "cu117"; "cu118"; "cu121"] !! l = Some cu_version →
  emitted_combos !! (16 * i + 4 * j + l) = Some (btype, python_version, cu_version).
Proof.
  intros Hi Hj Hl.
  destruct i as [|[|i]]; [| |done];
    (destruct j as [|[|[|[|j]]]]; [| | | |done]);
    (destruct l as [|[|[|[|l]]]]; [| | | |done]);
    injection Hi as <-; injection Hj as <-; injection Hl as <-; reflexivity.
Qed.

Lemma bind_single {A B} (f : A → list B) (g : A → B) (l : list A) :
  (∀ x, f x = [g x]) → l ≫= f = g <$> l.
Proof.
  intros Hf. induction l as [|x l IH]; [done|].
  change ((x :: l) ≫= f) with (f x ++ (l ≫= f))%list. by rewrite Hf, IH.
Qed.

(** The list follows the iteration order of the loops: package type
    outermost, then Python version, then compute variant. The base job of the
    [i]-th package type, [j]-th Python version and [l]-th Windows variant is
    at position [16 * i + 4 * j + l] without uploads and at twice that
    position with uploads. *)
Theorem build_workflows_order
    prefix filter_branch (upload : bool) windows_latest_only (i j l : nat)
    btype python_version cu_version :
  ["wheel"; "conda"] !! i = Some btype →
  PYTHON_VERSIONS !! j = Some python_version →
  ["cpu"; "cu117"; "cu118"; "cu121"] !! l = Some cu_version →
  build_workflows prefix filter_branch upload windows_latest_only
    !! ((if upload then 2 else 1) * (16 * i + 4 * j + l)) =
  Some (generate_base_workflow
          (prefix +:+ job_suffix "win" btype python_version cu_version)
          python_version cu_version false "win" btype
          (effective_filter_branch filter_branch windows_latest_only PYTHON_VERSIONS
             ["cpu"; "cu117"; "cu118"; "cu121"] btype "win" python_version cu_version)).
Proof.
  intros Hi Hj Hl.
  pose proof (emitted_combos_lookup _ _ _ _ _ _ Hi Hj Hl) as Hk.
  destruct upload.
  - destruct (build_workflows_upload_pairs prefix filter_branch windows_latest_only
                (16 * i + 4 * j + l)) as [Hbase _].
    by rewrite Hbase, Hk.
  - rewrite build_workflows_unfold.
    rewrite (bind_single _ (λ c : string * string * string,
      generate_base_workflow (prefix +:+ job_suffix "win" c.1.1 c.1.2 c.2) c.1.2 c.2
        false "win" c.1.1
        (effective_filter_branch filter_branch windows_latest_only PYTHON_VERSIONS
           ["cpu"; "cu117"; "cu118"; "cu121"] c.1.1 "win" c.1.2 c.2))).
    + rewrite list_lookup_fmap, Nat.mul_1_l, Hk. reflexivity.
    + intros [[bt pv] cu]. by rewrite workflow_pair_eq.
Qed.

Lemma build_workflows_order_witness :
  build_workflows "" None true false !! (2 * (16 * 1 + 4 * 2 + 3)) =
  Some (generate_base_workflow ("" +:+ job_suffix "win" "conda" "3.10" "cu121")
          "3.10" "cu121" false "win" "conda"
          (effective_filter_branch None false PYTHON_VERSIONS
             ["cpu"; "cu117"; "cu118"; "cu121"] "conda" "win" "3.10" "cu121")).
Proof.
  apply (build_workflows_order "" None true false 1 2 3 "conda" "3.10" "cu121");
    reflexivity.
Defined.
